(** * musemonitor.online: the rolling time-series buffer and its streamer

    A shallow embedding of [src/musemonitor/online.py]: the classes [Data],
    [TimeSeries] and the streaming loop of [LSLStreamer].

    An object is a record of optional attributes ([None]: the attribute has
    not been assigned, reading it raises [AttributeError]).  A method is a
    function from the object's state to an outcome: it returns, raises, or
    blocks for ever on a lock that is already held.  Sample values are
    8-byte floats in the source; the code performs no arithmetic on them, so
    their type [F] is left abstract. *)

From Stdlib Require Import ZArith List Bool Lia String.
Import ListNotations.
Local Open Scope Z_scope.

(** ** Python control flow and slicing *)

Module Py.

Inductive exn : Type :=
| AttributeError
| NotImplementedError
| TypeError
| ValueError
| IndexError
| SerialException.

Definition exn_eqb (a b : exn) : bool :=
  match a, b with
  | AttributeError, AttributeError
  | NotImplementedError, NotImplementedError
  | TypeError, TypeError
  | ValueError, ValueError
  | IndexError, IndexError
  | SerialException, SerialException => true
  | _, _ => false
  end.

(** What a call does to the object [S] it runs on. [Block]: the thread
    waits on [threading.Lock.acquire] for a lock that nobody releases. *)
Inductive outcome (S A : Type) : Type :=
| Return (a : A) (s : S)
| Raise (e : exn) (s : S)
| Block (s : S).
Arguments Return {S A} a s.
Arguments Raise {S A} e s.
Arguments Block {S A} s.

Definition M (S A : Type) : Type := S -> outcome S A.

Definition ret {S A} (a : A) : M S A := fun s => Return a s.

Definition bind {S A B} (m : M S A) (k : A -> M S B) : M S B :=
  fun s =>
    match m s with
    | Return a s' => k a s'
    | Raise e s' => Raise e s'
    | Block s' => Block s'
    end.

Definition raise {S A} (e : exn) : M S A := fun s => Raise e s.

(** [try: m except e: handler] *)
Definition try_except {S A} (m : M S A) (e : exn) (handler : M S A) : M S A :=
  fun s =>
    match m s with
    | Raise e' s' => if exn_eqb e' e then handler s' else Raise e' s'
    | o => o
    end.

(** The state an outcome leaves the object in. *)
Definition final {S A} (o : outcome S A) : S :=
  match o with
  | Return _ s => s
  | Raise _ s => s
  | Block s => s
  end.

Definition returns {S A} (o : outcome S A) : bool :=
  match o with Return _ _ => true | _ => false end.

Definition raises {S A} (o : outcome S A) : option exn :=
  match o with Raise e _ => Some e | _ => None end.

Definition blocks {S A} (o : outcome S A) : bool :=
  match o with Block _ => true | _ => false end.

(** A slice bound [i] of a sequence of length [len], as [slice.indices]
    adjusts it (step 1): a negative bound counts from the end, and the result
    is clamped to [0 .. len]. *)
Definition adjust (len i : Z) : Z :=
  if i <? 0 then Z.max 0 (i + len) else Z.min i len.

Definition len {A} (l : list A) : Z := Z.of_nat (List.length l).

(** [l[:j]] *)
Definition slice_to {A} (j : Z) (l : list A) : list A :=
  firstn (Z.to_nat (adjust (len l) j)) l.

(** [l[i:]] *)
Definition slice_from {A} (i : Z) (l : list A) : list A :=
  skipn (Z.to_nat (adjust (len l) i)) l.

(** [l[i]] for a sequence; [None]: the index is out of range. *)
Definition index {A} (i : Z) (l : list A) : option A :=
  let j := if i <? 0 then i + len l else i in
  if (0 <=? j) && (j <? len l) then nth_error l (Z.to_nat j) else None.

End Py.

Import Py.

Declare Scope py_scope.
Delimit Scope py_scope with py.
Notation "x <- m ;; k" := (bind m (fun x => k))
  (at level 61, m at next level, right associativity) : py_scope.
Notation "m ;; k" := (bind m (fun _ => k))
  (at level 61, right associativity) : py_scope.
Local Open Scope py_scope.

(** ** The objects *)

Section Model.

Context {F : Type}.

(** The value [0.0] that [np.zeros] fills with. *)
Variable zero : F.

(** [int(window * self.sfreq)]: floating-point product, truncated. *)
Variable int_of_product : F -> F -> Z.

(** [musemonitor.utils.dejitter_timestamps(timestamps, sfreq=, last_time=)],
    a function of the package that [online.py] imports and calls. *)
Variable dejitter_timestamps : list F -> F -> F -> list F.

(** One element of an array of dtype
    [[('time', 'f8'), ('channels', channels_dtype)]]: a timestamp and the
    nested record of the channel values, in the order of [ch_names]. *)
Record sample : Type := mk_sample {
  time : F;
  channels : list F
}.

(** A text line written by [np.savetxt]: the numbers it formatted, in
    order (they are joined by a blank and ended by a newline). *)
Definition line : Type := list F.

(** The attributes of a [TimeSeries] instance.  [_lock] is a
    [threading.Lock]: [Some true] when it is held.  [_dtype] is determined by
    the channel names.  [_file] is the file opened for appending: the lines
    written to it through this object.  [updated] is a [threading.Event]:
    its flag. *)
Record TimeSeries : Type := mk_TimeSeries {
  metadata : option (option string);
  updated : option bool;
  _lock : option bool;
  _data : option (list sample);
  _dtype : option (list string);
  sfreq : option F;
  n_samples : option Z;
  _count : option Z;
  _file : option (list line)
}.

(** A new instance, before [__init__] has assigned anything. *)
Definition fresh : TimeSeries :=
  mk_TimeSeries None None None None None None None None None.

Definition set_metadata (v : option string) (s : TimeSeries) : TimeSeries :=
  mk_TimeSeries (Some v) (updated s) (_lock s) (_data s) (_dtype s) (sfreq s)
    (n_samples s) (_count s) (_file s).

Definition set_updated (v : bool) (s : TimeSeries) : TimeSeries :=
  mk_TimeSeries (metadata s) (Some v) (_lock s) (_data s) (_dtype s) (sfreq s)
    (n_samples s) (_count s) (_file s).

Definition set__lock (v : bool) (s : TimeSeries) : TimeSeries :=
  mk_TimeSeries (metadata s) (updated s) (Some v) (_data s) (_dtype s) (sfreq s)
    (n_samples s) (_count s) (_file s).

Definition set__data (v : list sample) (s : TimeSeries) : TimeSeries :=
  mk_TimeSeries (metadata s) (updated s) (_lock s) (Some v) (_dtype s) (sfreq s)
    (n_samples s) (_count s) (_file s).

Definition set__dtype (v : list string) (s : TimeSeries) : TimeSeries :=
  mk_TimeSeries (metadata s) (updated s) (_lock s) (_data s) (Some v) (sfreq s)
    (n_samples s) (_count s) (_file s).

Definition set_sfreq (v : F) (s : TimeSeries) : TimeSeries :=
  mk_TimeSeries (metadata s) (updated s) (_lock s) (_data s) (_dtype s) (Some v)
    (n_samples s) (_count s) (_file s).

Definition set_n_samples (v : Z) (s : TimeSeries) : TimeSeries :=
  mk_TimeSeries (metadata s) (updated s) (_lock s) (_data s) (_dtype s) (sfreq s)
    (Some v) (_count s) (_file s).

Definition set__count (v : Z) (s : TimeSeries) : TimeSeries :=
  mk_TimeSeries (metadata s) (updated s) (_lock s) (_data s) (_dtype s) (sfreq s)
    (n_samples s) (Some v) (_file s).

Definition set__file (v : list line) (s : TimeSeries) : TimeSeries :=
  mk_TimeSeries (metadata s) (updated s) (_lock s) (_data s) (_dtype s) (sfreq s)
    (n_samples s) (_count s) (Some v).

(** A method of the object. *)
Definition method (A : Type) : Type := M TimeSeries A.

(** [self.attr], read. *)
Definition getattr {A} (attr : TimeSeries -> option A) : method A :=
  fun s =>
    match attr s with
    | Some v => Return v s
    | None => Raise AttributeError s
    end.

(** [self.attr = v] *)
Definition setattr {A} (set : A -> TimeSeries -> TimeSeries) (v : A) : method unit :=
  fun s => Return tt (set v s).

(** [with self._lock: body].  [threading.Lock] is not re-entrant: acquiring
    a lock that is held waits until it is released, and nothing in the module
    releases a lock other than the [with] block that acquired it.  On the way
    out the lock is released, also when the body raises. *)
Definition with_lock {A} (body : method A) : method A :=
  fun s =>
    match _lock s with
    | None => Raise AttributeError s
    | Some true => Block s
    | Some false =>
        match body (set__lock true s) with
        | Return a s' => Return a (set__lock false s')
        | Raise e s' => Raise e (set__lock false s')
        | Block s' => Block s'
        end
    end.

(** ** numpy on one-dimensional record arrays *)

(** [np.zeros((n,), dtype)]: [n] records of zeros; a negative dimension
    raises [ValueError]. *)
Definition zero_sample (names : list string) : sample :=
  mk_sample zero (repeat zero (List.length names)).

Definition np_zeros (n : Z) (names : list string) : method (list sample) :=
  if n <? 0 then raise ValueError
  else ret (repeat (zero_sample names) (Z.to_nat n)).

(** [np.array(pairs, dtype)]: every pair [(t, values)] becomes a record;
    a tuple of values whose length is not the number of channel fields cannot
    be assigned to the nested record and raises [ValueError]. *)
Definition to_record (names : list string) (p : F * list F) : option sample :=
  if Nat.eqb (List.length (snd p)) (List.length names)
  then Some (mk_sample (fst p) (snd p))
  else None.

Fixpoint to_records (names : list string) (pairs : list (F * list F))
  : option (list sample) :=
  match pairs with
  | [] => Some []
  | p :: rest =>
      match to_record names p, to_records names rest with
      | Some r, Some rs => Some (r :: rs)
      | _, _ => None
      end
  end.

Definition np_array (pairs : list (F * list F)) (names : list string)
  : method (list sample) :=
  match to_records names pairs with
  | Some a => ret a
  | None => raise ValueError
  end.

(** [np.savetxt(fh, X)] with the default [fmt='%.18e'] and [delimiter=' '],
    for a one-dimensional [X] of a record dtype: the number of columns is
    [len(X.dtype.names)], the row format is one ['%.18e'] per column, and
    every row [row] is written as [format % tuple(row)].  [tuple(row)] holds
    the top-level fields: the timestamp and the nested channels record. *)
Inductive item : Type :=
| Num (x : F)
| Rec (xs : list F).

Definition tuple_of_row (row : sample) : list item :=
  [Num (time row); Rec (channels row)].

(** ['%.18e' % v]: [v] must be a real number, otherwise [TypeError]. *)
Definition format_e (v : item) : option F :=
  match v with
  | Num x => Some x
  | Rec _ => None
  end.

Fixpoint format_items (vs : list item) : option line :=
  match vs with
  | [] => Some []
  | v :: rest =>
      match format_e v, format_items rest with
      | Some x, Some xs => Some (x :: xs)
      | _, _ => None
      end
  end.

(** [fh.write(v)] on [self._file]. *)
Definition fh_write (v : line) : method unit :=
  fh <- getattr _file ;; setattr set__file (fh ++ [v]).

Fixpoint np_savetxt (X : list sample) : method unit :=
  match X with
  | [] => ret tt
  | row :: rest =>
      match format_items (tuple_of_row row) with
      | Some v => fh_write v ;; np_savetxt rest
      | None => raise TypeError
      end
  end.

(** ** class Data *)

(** [Data.data], the property: a copy of the window, taken under the lock. *)
Definition data : method (list sample) :=
  try_except
    (with_lock (d <- getattr _data ;; ret d))
    AttributeError
    (raise NotImplementedError).

Definition Data_initialize : method unit := raise NotImplementedError.

Definition Data_update : method unit := raise NotImplementedError.

(** [Data.__init__(self, metadata)]; [self.initialize] is the method of the
    instance's class. *)
Definition Data___init__ (initialize : method unit) (meta : option string)
  : method unit :=
  initialize ;;
  setattr set_metadata meta ;;
  setattr set_updated false ;;
  setattr set__lock false.

(** ** class TimeSeries *)

Definition initialize : method unit :=
  with_lock (
    n <- getattr n_samples ;;
    names <- getattr _dtype ;;
    z <- np_zeros n names ;;
    setattr set__data z).

(** [self.window = window]: [window] is a property of the class with a getter
    only, so the assignment raises [AttributeError]. *)
Definition set_window (window : F) : method unit := raise AttributeError.

(** Lines 63-65: [np.dtype({'names': ch_names, 'formats': ['f8'] *
    len(ch_names)})], nested as the field [channels] of the dtype of the
    samples.  A field name that occurs twice raises [ValueError]; the outer
    dtype, of the two fields [time] and [channels], is always accepted.  The
    dtype is determined by the channel names. *)
Fixpoint has_duplicates (names : list string) : bool :=
  match names with
  | [] => false
  | name :: rest => existsb (String.eqb name) rest || has_duplicates rest
  end.

Definition np_dtype (ch_names : list string) : method (list string) :=
  if has_duplicates ch_names then raise ValueError else ret ch_names.

(** [TimeSeries.__init__], from the statement after the call of
    [Data.__init__] on.  [record_file] is the body of [if record:] (lines
    72-85), which asks the file system for the file name, makes its directory
    and assigns [self._file]; what it computes on strings is
    [choose_filename] and [makedirs_target] below. *)
Definition TimeSeries___init___rest (ch_names : list string)
  (sfreq_arg window : F) (record : bool) (record_file : method unit)
  : method unit :=
  dtype <- np_dtype ch_names ;;
  setattr set__dtype dtype ;;
  setattr set_sfreq sfreq_arg ;;
  set_window window ;;
  f <- getattr sfreq ;;
  setattr set_n_samples (int_of_product window f) ;;
  n <- getattr n_samples ;;
  setattr set__count n ;;
  if record then record_file else ret tt.

Definition TimeSeries___init__ (ch_names : list string) (sfreq_arg window : F)
  (record : bool) (record_file : method unit) (meta : option string)
  : method unit :=
  Data___init__ initialize meta ;;
  TimeSeries___init___rest ch_names sfreq_arg window record record_file.

Definition _format_samples (timestamps : list F) (samples : list (list F))
  : method (list sample) :=
  let samples_tuples := samples in
  let pairs := combine timestamps samples_tuples in
  names <- getattr _dtype ;;
  np_array pairs names.

Definition _append (new : list sample) : method unit :=
  with_lock (
    d <- getattr _data ;;
    setattr set__data (d ++ new) ;;
    copy <- data ;;
    n <- getattr n_samples ;;
    setattr set__data (slice_from (- n) copy)).

(** The assignment of line 114 once its right-hand side [self.data] has been
    evaluated to [copy]: [self._data = copy[-self.n_samples:]].  [_append new]
    is [with_lock (d <- getattr _data ;; setattr set__data (d ++ new) ;;
    copy <- data ;; _append_trim copy)]. *)
Definition _append_trim (copy : list sample) : method unit :=
  n <- getattr n_samples ;;
  setattr set__data (slice_from (- n) copy).

Definition _write_to_file : method unit :=
  with_lock (
    _ <- getattr _file ;;
    d <- getattr _data ;;
    np_savetxt d).

(** [self.updated.set()] *)
Definition updated_set : method unit :=
  _ <- getattr updated ;; setattr set_updated true.

Definition update (timestamps : list F) (samples : list (list F)) : method unit :=
  new <- _format_samples timestamps samples ;;
  c <- getattr _count ;;
  setattr set__count (c - len new) ;;
  c' <- getattr _count ;;
  let cutoff := len new + c' in
  _append (slice_to cutoff new) ;;
  c'' <- getattr _count ;;
  (if c'' <? 1
   then _write_to_file ;;
        n <- getattr n_samples ;;
        setattr set__count n
   else ret tt) ;;
  _append (slice_from cutoff new) ;;
  updated_set.

(** The body of [update] with the two helper methods it calls named:
    [self._append] and [self._write_to_file] are looked up on the instance, so
    that on an instance of a subclass that overrides them [update] calls the
    subclass's.  [update] is [update_of _append _write_to_file]. *)
Definition update_of (append : list sample -> method unit)
  (write_to_file : method unit) (timestamps : list F) (samples : list (list F))
  : method unit :=
  new <- _format_samples timestamps samples ;;
  c <- getattr _count ;;
  setattr set__count (c - len new) ;;
  c' <- getattr _count ;;
  let cutoff := len new + c' in
  append (slice_to cutoff new) ;;
  c'' <- getattr _count ;;
  (if c'' <? 1
   then write_to_file ;;
        n <- getattr n_samples ;;
        setattr set__count n
   else ret tt) ;;
  append (slice_from cutoff new) ;;
  updated_set.

(** What a helper method leaves alone: the counters, the dtype, the event
    and the lock are after the call as before it. *)
Definition frame (s s' : TimeSeries) : Prop :=
  _count s' = _count s
  /\ n_samples s' = n_samples s
  /\ _dtype s' = _dtype s
  /\ updated s' = updated s
  /\ _lock s' = _lock s.

(** ** class LSLStreamer: the streaming loop

    The streamer's [self.data] is the buffer object the loop feeds; the state
    a loop iteration runs on is that object. *)

(** [self.data[key]]: the buffer is a [TimeSeries], and neither [TimeSeries]
    nor [Data] defines [__getitem__], so subscripting it raises [TypeError]. *)
Definition TimeSeries_subscript (key : string) : method (list F) :=
  raise TypeError.

Definition index_last (col : list F) : method F :=
  match index (-1) col with
  | Some x => ret x
  | None => raise IndexError
  end.

(** The arguments are evaluated before the call. *)
Definition _dejitter_timestamps (streamer_sfreq : F) (timestamps : list F)
  : method (list F) :=
  col <- TimeSeries_subscript "time" ;;
  last_time <- index_last col ;;
  ret (dejitter_timestamps timestamps streamer_sfreq last_time).

(** One turn of the [while self.proceed] loop, on what [_pull_chunk]
    returned. *)
Definition run_iteration (dejitter : bool) (streamer_sfreq : F)
  (samples : list (list F)) (timestamps : list F) : method unit :=
  match timestamps with
  | [] => ret tt
  | _ :: _ =>
      ts <- (if dejitter
             then _dejitter_timestamps streamer_sfreq timestamps
             else ret timestamps) ;;
      update ts samples
  end.

(** [run]: the loop over the chunks pulled while [self.proceed] holds; a pull
    that raises [SerialException] ([inr tt]) ends the loop through the
    [except] clause. *)
Definition pull : Type := (list (list F) * list F) + unit.

Fixpoint run_loop (dejitter : bool) (streamer_sfreq : F) (pulls : list pull)
  : method unit :=
  match pulls with
  | [] => ret tt
  | inl (samples, timestamps) :: rest =>
      run_iteration dejitter streamer_sfreq samples timestamps ;;
      run_loop dejitter streamer_sfreq rest
  | inr _ :: _ => raise SerialException
  end.

(** A sequence of [update] calls made one after the other, as the streaming
    loop makes them. *)
Fixpoint update_all (chunks : list (list F * list (list F))) : method unit :=
  match chunks with
  | [] => ret tt
  | (timestamps, samples) :: rest =>
      update timestamps samples ;; update_all rest
  end.

Definition run (dejitter : bool) (streamer_sfreq : F) (pulls : list pull)
  : method unit :=
  try_except (run_loop dejitter streamer_sfreq pulls) SerialException (ret tt).

End Model.

(** ** Example buffers

    Buffers of two channels with integer-valued samples, in the state
    [__init__] and [initialize] are written to establish: capacity 4, the
    window all zeros, the counter at the capacity, the file open and empty. *)

Module Examples.

Definition row (t a b : Z) : @sample Z := mk_sample t [a; b].

Definition zeros4 : list (@sample Z) := repeat (row 0 0 0) 4.

(** The lock free. *)
Definition buffer : @TimeSeries Z :=
  mk_TimeSeries (Some None) (Some false) (Some false) (Some zeros4)
    (Some ["TP9"; "AF7"]%string) (Some 1) (Some 4) (Some 4) (Some []).

(** The lock held by another thread. *)
Definition buffer_held : @TimeSeries Z :=
  mk_TimeSeries (Some None) (Some false) (Some true) (Some zeros4)
    (Some ["TP9"; "AF7"]%string) (Some 1) (Some 4) (Some 4) (Some []).

(** Capacity 0: [int(window * sfreq) == 0]. *)
Definition buffer_empty : @TimeSeries Z :=
  mk_TimeSeries (Some None) (Some false) (Some false) (Some [])
    (Some ["TP9"; "AF7"]%string) (Some 1) (Some 0) (Some 0) (Some []).

(** The lock assigned, [initialize] not yet run. *)
Definition buffer_uninitialized : @TimeSeries Z :=
  mk_TimeSeries (Some None) (Some false) (Some false) None
    (Some ["TP9"; "AF7"]%string) (Some 1) (Some 4) (Some 4) (Some []).

(** A chunk of four samples, as pulled and as formatted. *)
Definition timestamps4 : list Z := [1; 2; 3; 4].
Definition samples4 : list (list Z) := [[1; 1]; [2; 2]; [3; 3]; [4; 4]].
Definition chunk4 : list (@sample Z) :=
  [row 1 1 1; row 2 2 2; row 3 3 3; row 4 4 4].

Definition names : list string := ["TP9"; "AF7"]%string.

(** A chunk of five samples and the four samples that follow it. *)
Definition timestamps5 : list Z := [1; 2; 3; 4; 5].
Definition samples5 : list (list Z) := [[1; 1]; [2; 2]; [3; 3]; [4; 4]; [5; 5]].
Definition chunk5 : list (@sample Z) :=
  [row 1 1 1; row 2 2 2; row 3 3 3; row 4 4 4; row 5 5 5].

Definition timestamps6 : list Z := [6; 7; 8; 9].
Definition samples6 : list (list Z) := [[6; 6]; [7; 7]; [8; 8]; [9; 9]].
Definition chunk6 : list (@sample Z) :=
  [row 6 6 6; row 7 7 7; row 8 8 8; row 9 9 9].

(** The helper methods of a subclass of [TimeSeries] that overrides the two
    of them, as inputs for [update_of]: an [_append] that reads the attribute
    [self._data] where [TimeSeries._append] reads the property [self.data],
    and a [_write_to_file] that writes one row per sample, the timestamp
    followed by the channel values. *)
Definition Sub__append (new : list (@sample Z)) : method unit :=
  with_lock (
    d <- getattr _data ;;
    setattr set__data (d ++ new) ;;
    d' <- getattr _data ;;
    n <- getattr n_samples ;;
    setattr set__data (slice_from (- n) d')).

Definition Sub__write_to_file : method (F:=Z) unit :=
  with_lock (
    fh <- getattr _file ;;
    d <- getattr _data ;;
    setattr set__file (fh ++ map (fun r => time r :: channels r) d)).

(** The states on which these two return: lock free, window, capacity and
    file assigned. *)
Definition Sub_ready (s : @TimeSeries Z) : Prop :=
  _lock s = Some false
  /\ _data s <> None
  /\ n_samples s <> None
  /\ _file s <> None.

(** Helper methods replaced by stubs that do nothing. *)
Definition stub__append (new : list (@sample Z)) : method (F:=Z) unit := ret tt.
Definition stub__write_to_file : method (F:=Z) unit := ret tt.

End Examples.

(** ** The output file of a recording buffer

    The [record] branch of [TimeSeries.__init__] (lines 71-85), as functions of
    what it asks the file system. *)

Section Naming.

(** [os.path.exists]. *)
Variable path_exists : string -> bool.

(** [filename.format(label)] for the template of line 74: the file name for
    a label. *)
Variable name_of : Z -> string.

(** The loop of lines 77-79 from [label] on, its test evaluated [fuel]
    times at most; [None]: the loop is still running. *)
Fixpoint next_label (fuel : nat) (label : Z) : option Z :=
  match fuel with
  | O => None
  | S fuel' =>
      if path_exists (name_of label)
      then next_label fuel' (label + 1)
      else Some label
  end.

(** Lines 72-80: the file name, from the arguments [filename] and [label]. *)
Definition choose_filename (filename : option string) (label : option Z)
  (fuel : nat) : option string :=
  match filename with
  | Some f => Some f
  | None =>
      match label with
      | Some l => Some (name_of l)
      | None => option_map name_of (next_label fuel 0)
      end
  end.

End Naming.

(** [s.rindex(sep)] for a separator of one character: the highest index at
    which it occurs; [None]: it does not occur ([ValueError]). *)
Fixpoint rindex (sep : Ascii.ascii) (s : string) : option nat :=
  match s with
  | EmptyString => None
  | String c rest =>
      match rindex sep rest with
      | Some i => Some (S i)
      | None => if Ascii.eqb c sep then Some O else None
      end
  end.

(** Line 83: the directory handed to [os.makedirs],
    [filename[:filename.rindex(os.path.sep)]]. *)
Definition makedirs_target (sep : Ascii.ascii) (filename : string)
  : exn + string :=
  match rindex sep filename with
  | Some i => inr (substring 0 i filename)
  | None => inl ValueError
  end.

(** [os.path.sep] on a POSIX system, the character [/]. *)
Definition os_path_sep : Ascii.ascii := Ascii.ascii_of_nat 47.

(** ** The inlet and the streamer's constructor *)

(** The XML description of the channels as [get_ch_names] walks it: an
    element is given by the [label] values of itself and of the siblings
    after it.  Past the last sibling [next_sibling] returns the empty
    element, whose [child_value] is the empty string. *)
Definition xml_element : Type := list string.

Definition child_value_label (e : xml_element) : string :=
  match e with
  | [] => EmptyString
  | l :: _ => l
  end.

Definition next_sibling (e : xml_element) : xml_element := tl e.

(** The generator [next_ch_name], [n] turns of its loop from [ch_xml]. *)
Fixpoint next_ch_name (ch_xml : xml_element) (n : nat) : list string :=
  match n with
  | O => []
  | S n' => child_value_label ch_xml :: next_ch_name (next_sibling ch_xml) n'
  end.

Section Streamer.

Context {F : Type}.
Variable zero : F.
Variable int_of_product : F -> F -> Z.

(** The default [window=10] of [TimeSeries.__init__]. *)
Variable ten : F.

(** The [record] branch of [TimeSeries.__init__] with its defaults
    [filename=None], [data_dir='data'], [label=None]. *)
Variable record_file : method (F:=F) unit.

(** What the module reads of a stream: [info.nominal_srate()],
    [info.channel_count()], and
    [info.desc().child('channels').first_child()]. *)
Record stream_info : Type := mk_stream_info {
  nominal_srate : F;
  channel_count : Z;
  first_channel : xml_element
}.

Definition get_ch_names (info : stream_info) : list string :=
  next_ch_name (first_channel info) (Z.to_nat (channel_count info)).

(** [get_lsl_inlet], on the streams [lsl.resolve_stream] returned; [None]:
    [IOError] (the [IndexError] of [streams[0]] is replaced). *)
Definition get_lsl_inlet (streams : list stream_info) : option stream_info :=
  match streams with
  | [] => None
  | s :: _ => Some s
  end.

(** The attributes of an [LSLStreamer]; [data] is the buffer object it
    feeds, [started] whether [start()] was called. *)
Record LSLStreamer : Type := mk_LSLStreamer {
  inlet : stream_info;
  dejitter : bool;
  streamer_sfreq : F;
  n_chan : Z;
  ch_names : list string;
  data_buffer : @TimeSeries F;
  proceed : bool;
  started : bool
}.

Inductive constructed : Type :=
| Constructed (s : LSLStreamer)
| RaisedIOError
| Raised (e : exn)
| Blocked.

(** [LSLStreamer.__init__(inlet, data, dejitter, chunk_samples, autostart)];
    [streams] is what a call of [lsl.resolve_stream] would return.
    [chunk_samples] only enters the pull function. *)
Definition LSLStreamer___init__ (streams : list stream_info)
  (inlet_arg : option stream_info) (data_arg : option (@TimeSeries F))
  (dejitter_arg autostart : bool) : constructed :=
  match (match inlet_arg with
         | None => get_lsl_inlet streams
         | Some i => Some i
         end) with
  | None => RaisedIOError
  | Some i =>
      let info := i in
      let sfreq_ := nominal_srate info in
      let n_chan_ := channel_count info in
      let ch_names_ := get_ch_names info in
      match data_arg with
      | None =>
          match TimeSeries___init__ zero int_of_product ch_names_ sfreq_ ten
                  true record_file None fresh with
          | Return _ d =>
              Constructed (mk_LSLStreamer i dejitter_arg sfreq_ n_chan_
                             ch_names_ d true autostart)
          | Raise e _ => Raised e
          | Block _ => Blocked
          end
      | Some d =>
          Constructed (mk_LSLStreamer i dejitter_arg sfreq_ n_chan_ ch_names_
                         d true autostart)
      end
  end.

(** A pull that timed out: no timestamps. *)
Definition timed_out (samples : list (list F)) : @pull F := inl (samples, []).

End Streamer.

(** * Properties *)

(** ** Slices *)

Lemma adjust_range (n i : Z) : 0 <= n -> 0 <= adjust n i <= n.
Proof.
  intros Hn. unfold adjust. destruct (i <? 0) eqn:E.
  - apply Z.ltb_lt in E. lia.
  - apply Z.ltb_ge in E. lia.
Qed.

Lemma len_nonneg {A} (l : list A) : 0 <= len l.
Proof. unfold len. lia. Qed.

Lemma len_app {A} (l1 l2 : list A) : len (l1 ++ l2) = len l1 + len l2.
Proof. unfold len. rewrite length_app. lia. Qed.

(** The two sub-appends of [update] split the chunk without losing or
    repeating a sample: for every cutoff, negative or past the end included,
    [new[:cutoff]] followed by [new[cutoff:]] is [new]. *)
Lemma cutoff_split_is_lossless {A} (c : Z) (l : list A) :
  slice_to c l ++ slice_from c l = l.
Proof. unfold slice_to, slice_from. apply firstn_skipn. Qed.

Lemma len_slice_to {A} (c : Z) (l : list A) :
  0 <= c -> len (slice_to c l) = Z.min c (len l).
Proof.
  intros Hc. unfold slice_to, len, adjust.
  destruct (c <? 0) eqn:E; [apply Z.ltb_lt in E; lia|].
  rewrite length_firstn. lia.
Qed.

Lemma len_slice_from {A} (c : Z) (l : list A) :
  0 <= c -> len (slice_from c l) = len l - Z.min c (len l).
Proof.
  intros Hc. unfold slice_from, len, adjust.
  destruct (c <? 0) eqn:E; [apply Z.ltb_lt in E; lia|].
  rewrite length_skipn. lia.
Qed.

Lemma slice_to_all {A} (c : Z) (l : list A) : len l <= c -> slice_to c l = l.
Proof.
  intros H. unfold slice_to, adjust.
  pose proof (len_nonneg l).
  destruct (c <? 0) eqn:E; [apply Z.ltb_lt in E; lia|].
  apply firstn_all2. unfold len in *. lia.
Qed.

Lemma slice_from_zero {A} (l : list A) : slice_from (- 0) l = l.
Proof.
  unfold slice_from, adjust. simpl.
  rewrite Z.min_l by apply len_nonneg. reflexivity.
Qed.

(** The trim [a[-n:]] of an array at least [n >= 1] long keeps [n] elements. *)
Lemma len_trim {A} (n : Z) (l : list A) :
  1 <= n -> n <= len l -> len (slice_from (- n) l) = n.
Proof.
  intros Hn Hl. unfold slice_from, adjust, len in *.
  destruct (- n <? 0) eqn:E; [|apply Z.ltb_ge in E; lia].
  rewrite length_skipn. lia.
Qed.

(** ** Pairing timestamps with samples *)

Lemma combine_firstn_min {A B} (l1 : list A) (l2 : list B) :
  combine (firstn (Nat.min (List.length l1) (List.length l2)) l1)
          (firstn (Nat.min (List.length l1) (List.length l2)) l2)
  = combine l1 l2.
Proof.
  revert l2. induction l1 as [|a l1 IH]; intros [|b l2]; simpl; try reflexivity.
  f_equal. apply IH.
Qed.

Section Facts.

Context {F : Type}.
Variable zero : F.
Variable int_of_product : F -> F -> Z.
Variable dejitter_timestamps : list F -> F -> F -> list F.

Abbreviation TimeSeries := (@TimeSeries F).
Abbreviation sample := (@sample F).

(** ** The lock *)

Lemma with_lock_held {A} (body : method A) (st : TimeSeries) :
  _lock st = Some true -> with_lock body st = Block st.
Proof. intros H. unfold with_lock. rewrite H. reflexivity. Qed.

Lemma data_held (st : TimeSeries) :
  _lock st = Some true -> data st = Block st.
Proof.
  intros H. unfold data, try_except. rewrite with_lock_held by exact H.
  reflexivity.
Qed.

(** [_append] takes the lock and then reads the [data] property, which takes
    the same lock: the second acquisition waits for ever.  The window is left
    concatenated and not trimmed. *)
Lemma _append_blocks (new d : list sample) (st : TimeSeries) :
  _lock st = Some false -> _data st = Some d ->
  _append new st = Block (set__data (d ++ new) (set__lock true st)).
Proof.
  intros Hl Hd. unfold _append, with_lock. rewrite Hl.
  unfold bind at 1. unfold getattr at 1. simpl. rewrite Hd.
  unfold bind at 1. unfold setattr at 1.
  unfold bind at 1. rewrite data_held by reflexivity. reflexivity.
Qed.

Lemma _append_held (new : list sample) (st : TimeSeries) :
  _lock st = Some true -> _append new st = Block st.
Proof. intros H. unfold _append. apply with_lock_held, H. Qed.

(** In no state and for no chunk does [_append] return.  With [_lock]
    unassigned it raises [AttributeError].  With the lock held elsewhere it
    waits at its own [with], whatever else is assigned, and touches nothing.
    With the lock free and [_data] unassigned it raises [AttributeError] and
    releases the lock, the object being as before.  With the lock free and a
    window assigned it concatenates the chunk, untrimmed, and waits for ever
    at the [data] property, holding the lock. *)
Lemma append_never_returns (new : list sample) (st : TimeSeries) :
  _append new st
  = match _lock st with
    | None => Raise AttributeError st
    | Some true => Block st
    | Some false =>
        match _data st with
        | None => Raise AttributeError st
        | Some d => Block (set__data (d ++ new) (set__lock true st))
        end
    end
  /\ returns (_append new st) = false.
Proof.
  destruct (_lock st) as [[|]|] eqn:Hl.
  - rewrite _append_held by exact Hl. split; reflexivity.
  - destruct (_data st) as [d|] eqn:Hd.
    + rewrite (_append_blocks new d) by assumption. split; reflexivity.
    + destruct st as [m u l d dt sf n c f]. simpl in Hl, Hd. subst l d.
      split; reflexivity.
  - unfold _append, with_lock. rewrite Hl. split; reflexivity.
Qed.

(** ** [update] on an initialised buffer *)

Lemma _format_samples_ok (ts : list F) (ss : list (list F))
  (names : list string) (new : list sample) (st : TimeSeries) :
  _dtype st = Some names ->
  to_records names (combine ts ss) = Some new ->
  _format_samples ts ss st = Return new st.
Proof.
  intros Hn Hr. unfold _format_samples, bind, getattr, np_array.
  rewrite Hn, Hr. reflexivity.
Qed.

(** With its lock free, [update] decrements the counter, hands the first
    [cutoff] samples to [_append], and waits there for ever. *)
Lemma update_blocks (ts : list F) (ss : list (list F)) (names : list string)
  (new d : list sample) (c : Z) (st : TimeSeries) :
  _lock st = Some false ->
  _dtype st = Some names ->
  to_records names (combine ts ss) = Some new ->
  _count st = Some c ->
  _data st = Some d ->
  update ts ss st
  = Block (set__data (d ++ slice_to c new)
             (set__lock true (set__count (c - len new) st))).
Proof.
  intros Hl Hn Hr Hc Hd. unfold update.
  unfold bind at 1. rewrite (_format_samples_ok ts ss names new) by assumption.
  unfold bind at 1. unfold getattr at 1. rewrite Hc.
  unfold bind at 1. unfold setattr at 1.
  unfold bind at 1. unfold getattr at 1. simpl _count.
  unfold bind at 1.
  rewrite (_append_blocks _ d) by assumption.
  replace (len new + (c - len new)) with c by lia.
  reflexivity.
Qed.

(** With its lock held elsewhere, [update] still decrements the counter
    before it waits. *)
Lemma update_held (ts : list F) (ss : list (list F)) (names : list string)
  (new : list sample) (c : Z) (st : TimeSeries) :
  _lock st = Some true ->
  _dtype st = Some names ->
  to_records names (combine ts ss) = Some new ->
  _count st = Some c ->
  update ts ss st = Block (set__count (c - len new) st).
Proof.
  intros Hl Hn Hr Hc. unfold update.
  unfold bind at 1. rewrite (_format_samples_ok ts ss names new) by assumption.
  unfold bind at 1. unfold getattr at 1. rewrite Hc.
  unfold bind at 1. unfold setattr at 1.
  unfold bind at 1. unfold getattr at 1. simpl _count.
  unfold bind at 1.
  rewrite _append_held by exact Hl.
  reflexivity.
Qed.

Lemma initialize_ok (names : list string) (n : Z) (st : TimeSeries) :
  _lock st = Some false ->
  n_samples st = Some n ->
  _dtype st = Some names ->
  0 <= n ->
  initialize zero st
  = Return tt (set__lock false
                 (set__data (repeat (zero_sample zero names) (Z.to_nat n))
                    (set__lock true st))).
Proof.
  intros Hl Hn Hd Hpos. destruct st; simpl in *; subst.
  unfold initialize, with_lock, bind, getattr, np_zeros. simpl.
  destruct (n <? 0) eqn:E; [apply Z.ltb_lt in E; lia|]. reflexivity.
Qed.

(** ** The update algorithm (C1, C2) *)

(** C1, as the code behaves.  On an initialised buffer (lock free, a window
    of [n_samples] samples, [1 <= _count <= n_samples]) [update] with a chunk
    of [k] well-formed samples decrements [_count] by [k] and concatenates the
    first [min(_count, k)] samples of the chunk to the window.  There it
    stops: [_append] holds the lock and reads the [data] property, which
    acquires the same lock, so the call waits for ever.  Nothing is flushed
    to the file, the counter is not reset (for [k] equal to the entering
    counter it stays at 0) and the rest of the chunk is not appended. *)
Theorem update_blocks_before_flush (ts : list F) (ss : list (list F))
  (names : list string) (new d : list sample) (c n : Z) (fh : list line)
  (st : TimeSeries) :
  _lock st = Some false ->
  _dtype st = Some names ->
  to_records names (combine ts ss) = Some new ->
  n_samples st = Some n ->
  _count st = Some c ->
  1 <= c <= n ->
  _data st = Some d ->
  len d = n ->
  _file st = Some fh ->
  blocks (update ts ss st) = true
  /\ _count (final (update ts ss st)) = Some (c - len new)
  /\ (len new = c -> _count (final (update ts ss st)) = Some 0)
  /\ _data (final (update ts ss st)) = Some (d ++ slice_to c new)
  /\ len (slice_to c new) = Z.min c (len new)
  /\ _file (final (update ts ss st)) = Some fh.
Proof.
  intros Hl Hn Hr Hns Hc Hcn Hd Hlen Hf.
  rewrite (update_blocks ts ss names new d c) by assumption.
  simpl. repeat split; try assumption.
  - intros Hk. rewrite Hk, Z.sub_diag. reflexivity.
  - apply len_slice_to. lia.
Qed.

(** C2, as the code behaves.  [initialize] establishes a window of exactly
    [n_samples] samples.  An [update] on the initialised buffer does not
    return, and the window it leaves behind holds
    [n_samples + min(_count, k)] samples: the chunk's first samples were
    concatenated and the trim to the last [n_samples] is never reached. *)
Theorem update_leaves_window_untrimmed (ts : list F) (ss : list (list F))
  (names : list string) (new : list sample) (c n : Z) (st : TimeSeries) :
  _lock st = Some false ->
  _dtype st = Some names ->
  to_records names (combine ts ss) = Some new ->
  n_samples st = Some n ->
  1 <= n ->
  _count st = Some c ->
  1 <= c <= n ->
  exists st1 w,
    initialize zero st = Return tt st1
    /\ _data st1 = Some w
    /\ len w = n
    /\ returns (update ts ss st1) = false
    /\ exists w',
         _data (final (update ts ss st1)) = Some w'
         /\ len w' = n + Z.min c (len new).
Proof.
  intros Hl Hn Hr Hns Hpos Hc Hcn.
  set (w := repeat (zero_sample zero names) (Z.to_nat n)).
  assert (Hw : len w = n) by (unfold len, w; rewrite repeat_length; lia).
  exists (set__lock false (set__data w (set__lock true st))), w.
  split; [apply (initialize_ok names n); (assumption || lia)|].
  split; [reflexivity|].
  split; [exact Hw|].
  rewrite (update_blocks ts ss names new w c) by (try reflexivity; assumption).
  split; [reflexivity|].
  exists (w ++ slice_to c new). split; [reflexivity|].
  rewrite len_app, len_slice_to by lia. lia.
Qed.

(** With the helper methods of [TimeSeries] itself, a sequence of [update]
    calls on an initialised buffer never reaches a flush: the first call
    waits for ever in [_append], the later calls are not made, and the file
    receives nothing, however many samples the chunks hold. *)
Lemma update_all_never_flushes (ts : list F) (ss : list (list F))
  (rest : list (list F * list (list F))) (names : list string)
  (new d : list sample) (c : Z) (fh : list line) (st : TimeSeries) :
  _lock st = Some false ->
  _dtype st = Some names ->
  to_records names (combine ts ss) = Some new ->
  _count st = Some c ->
  _data st = Some d ->
  _file st = Some fh ->
  blocks (update_all ((ts, ss) :: rest) st) = true
  /\ _file (final (update_all ((ts, ss) :: rest) st)) = Some fh.
Proof.
  intros Hl Hn Hr Hc Hd Hf. simpl update_all. unfold bind.
  rewrite (update_blocks ts ss names new d c) by assumption.
  simpl. split; [reflexivity | assumption].
Qed.

End Facts.

(** The exact chunk: four samples into a counter of four. *)
Lemma update_blocks_before_flush_witness :
  blocks (update Examples.timestamps4 Examples.samples4 Examples.buffer) = true
  /\ _count (final (update Examples.timestamps4 Examples.samples4 Examples.buffer))
     = Some 0
  /\ _data (final (update Examples.timestamps4 Examples.samples4 Examples.buffer))
     = Some (Examples.zeros4 ++ Examples.chunk4)
  /\ _file (final (update Examples.timestamps4 Examples.samples4 Examples.buffer))
     = Some [].
Proof.
  destruct (update_blocks_before_flush
              Examples.timestamps4 Examples.samples4 Examples.names
              Examples.chunk4 Examples.zeros4 4 4 [] Examples.buffer)
    as (Hb & _ & Hc & Hd & _ & Hf); try reflexivity; try lia.
  split; [exact Hb|].
  split; [apply Hc; reflexivity|].
  split; [exact Hd | exact Hf].
Defined.

Lemma update_leaves_window_untrimmed_witness :
  exists st1 w,
    initialize 0 Examples.buffer = Return tt st1
    /\ _data st1 = Some w
    /\ len w = 4
    /\ returns (update Examples.timestamps4 Examples.samples4 st1) = false
    /\ exists w',
         _data (final (update Examples.timestamps4 Examples.samples4 st1)) = Some w'
         /\ len w' = 4 + Z.min 4 (len Examples.chunk4).
Proof.
  apply (update_leaves_window_untrimmed 0
           Examples.timestamps4 Examples.samples4 Examples.names
           Examples.chunk4 4 4 Examples.buffer);
    try reflexivity; lia.
Defined.

(** ** Construction and the snapshot before initialisation (C3, C9) *)

Section Construction.

Context {F : Type}.
Variable zero : F.
Variable int_of_product : F -> F -> Z.

Abbreviation TimeSeries := (@TimeSeries F).

(** C3, amended.  Constructing a [TimeSeries] always raises
    [AttributeError] and assigns no attribute: [Data.__init__] calls
    [self.initialize()] first, and [TimeSeries.initialize] reads
    [self._lock] before anything else.  With [_lock] unassigned it raises
    whatever else is assigned, and so does [Data.__init__]; with the lock in
    place it raises [AttributeError] when [n_samples] or [_dtype] is missing,
    leaving the object as it was.  [_lock] is assigned inside
    [Data.__init__], after the call of [initialize]: when that call returns,
    [Data.__init__] returns with the lock assigned and free, and with
    [n_samples] and [_dtype] as [initialize] left them; these two are
    assigned only after [Data.__init__] has returned.  And in whatever state
    [Data.__init__] were to leave the object, the rest of
    [TimeSeries.__init__] does not complete: [np.dtype] raises [ValueError]
    when a channel name occurs twice, and otherwise the assignment of
    [self.window], a property with a getter only, raises [AttributeError]
    after [_dtype] and [sfreq] have been assigned. *)
Theorem TimeSeries_constructor_raises (ch_names : list string)
  (sfreq_arg window : F) (record : bool) (record_file : method unit)
  (meta : option string) :
  TimeSeries___init__ zero int_of_product ch_names sfreq_arg window record
    record_file meta fresh
  = Raise AttributeError fresh
  /\ (forall st : TimeSeries,
        _lock st = None ->
        initialize zero st = Raise AttributeError st
        /\ Data___init__ (initialize zero) meta st = Raise AttributeError st)
  /\ (forall st : TimeSeries,
        _lock st = Some false ->
        n_samples st = None \/ _dtype st = None ->
        initialize zero st = Raise AttributeError st)
  /\ (forall (init : method unit) (st st1 : TimeSeries),
        init st = Return tt st1 ->
        exists st2,
          Data___init__ init meta st = Return tt st2
          /\ _lock st2 = Some false
          /\ n_samples st2 = n_samples st1
          /\ _dtype st2 = _dtype st1)
  /\ (forall st : TimeSeries,
        TimeSeries___init___rest int_of_product ch_names sfreq_arg window
          record record_file st
        = if has_duplicates ch_names
          then Raise ValueError st
          else Raise AttributeError (set_sfreq sfreq_arg (set__dtype ch_names st))).
Proof.
  split; [reflexivity|].
  split.
  { intros st Hl. unfold Data___init__, bind, initialize, with_lock.
    rewrite Hl. split; reflexivity. }
  split.
  { intros st Hl H. destruct st as [m u l d dt sf n c f]. simpl in Hl, H.
    subst l. destruct H as [-> | ->]; [reflexivity|].
    destruct n as [n|]; [|reflexivity]. reflexivity. }
  split.
  { intros init st st1 H. eexists. split.
    - unfold Data___init__. unfold bind at 1. rewrite H. reflexivity.
    - repeat split. }
  intros st. unfold TimeSeries___init___rest, np_dtype.
  destruct (has_duplicates ch_names); reflexivity.
Qed.

(** C9.  On an instance whose window has not been assigned ([initialize] has
    not run to its end), reading the [data] property raises
    [NotImplementedError] and changes nothing, whether or not the lock has
    been assigned.  The lock is taken to be free at the call: it is held only
    while a method of the object is running. *)
Theorem data_before_initialize (st : TimeSeries) :
  _data st = None ->
  _lock st <> Some true ->
  data st = Raise NotImplementedError st.
Proof.
  intros Hd Hl. destruct st as [m u l d dt sf n c f]. simpl in *. subst d.
  destruct l as [[|]|]; [congruence | reflexivity | reflexivity].
Qed.

End Construction.

(** C3 as stated fails in one clause: [_lock] is not assigned after
    [Data.__init__] returns but inside it.  On an instance whose
    [initialize] returns (here one that does nothing), [Data.__init__]
    returns with the lock assigned, while [n_samples] and [_dtype] are still
    unassigned. *)
Lemma lock_assigned_inside_Data_init_counterexample :
  exists st' : @TimeSeries Z,
    Data___init__ (ret tt) None fresh = Return tt st'
    /\ _lock st' = Some false
    /\ n_samples st' = None
    /\ _dtype st' = None.
Proof. eexists. repeat split. Qed.

Lemma data_before_initialize_witness :
  data (@fresh Z) = Raise NotImplementedError fresh
  /\ data Examples.buffer_uninitialized
     = Raise NotImplementedError Examples.buffer_uninitialized.
Proof.
  split; apply data_before_initialize;
    solve [reflexivity | intros H; discriminate H].
Defined.

(** ** Malformed chunks (C4) *)

Section Chunks.

Context {F : Type}.

Abbreviation TimeSeries := (@TimeSeries F).
Abbreviation sample := (@sample F).

Lemma to_records_length (names : list string) (pairs : list (F * list F))
  (new : list sample) :
  to_records names pairs = Some new -> List.length new = List.length pairs.
Proof.
  revert new. induction pairs as [|p pairs IH]; intros new H; simpl in H.
  - injection H as <-. reflexivity.
  - destruct (to_record names p); [|discriminate].
    destruct (to_records names pairs) as [rs|]; [|discriminate].
    injection H as <-. simpl. f_equal. apply IH. reflexivity.
Qed.

Lemma to_records_arity (names : list string) (pairs : list (F * list F)) :
  Forall (fun p => List.length (snd p) = List.length names) pairs ->
  exists new, to_records names pairs = Some new.
Proof.
  induction 1 as [|p pairs Hp _ [rs IH]]; simpl.
  - eexists. reflexivity.
  - unfold to_record. rewrite Hp, Nat.eqb_refl, IH. eexists. reflexivity.
Qed.

Lemma _format_samples_truncates (ts : list F) (ss : list (list F))
  (st : TimeSeries) :
  _format_samples ts ss st
  = _format_samples
      (firstn (Nat.min (List.length ts) (List.length ss)) ts)
      (firstn (Nat.min (List.length ts) (List.length ss)) ss) st.
Proof.
  unfold _format_samples. rewrite combine_firstn_min. reflexivity.
Qed.

(** C4, amended.  [update] does not compare [len(timestamps)] with
    [len(samples)]: [zip] pairs them up to the shorter of the two, and the
    call is carried out exactly as the call on the first
    [min(len(timestamps), len(samples))] timestamps and samples, with the
    same outcome and the same final state.  When these pairs have the
    declared number of channels, formatting raises nothing and yields that
    many records. *)
Theorem update_truncates_to_shorter (ts : list F) (ss : list (list F))
  (st : TimeSeries) :
  update ts ss st
  = update (firstn (Nat.min (List.length ts) (List.length ss)) ts)
           (firstn (Nat.min (List.length ts) (List.length ss)) ss) st
  /\ (forall names,
        _dtype st = Some names ->
        Forall (fun p => List.length (snd p) = List.length names)
          (combine ts ss) ->
        exists new,
          _format_samples ts ss st = Return new st
          /\ List.length new = Nat.min (List.length ts) (List.length ss)).
Proof.
  split.
  - unfold update, bind. rewrite <- _format_samples_truncates. reflexivity.
  - intros names Hn Hall.
    destruct (to_records_arity names _ Hall) as [new Hnew].
    exists new. split.
    + apply (_format_samples_ok ts ss names); assumption.
    + rewrite (to_records_length _ _ _ Hnew). apply length_combine.
Qed.

End Chunks.

(** C4 as stated fails: three timestamps with two samples.  No exception is
    raised, and the counter has gone from 4 to 2. *)
Lemma update_length_mismatch_counterexample :
  List.length [1; 2; 3] <> List.length [[1; 1]; [2; 2]]
  /\ raises (update [1; 2; 3] [[1; 1]; [2; 2]] Examples.buffer) = None
  /\ _count Examples.buffer = Some 4
  /\ _count (final (update [1; 2; 3] [[1; 1]; [2; 2]] Examples.buffer)) = Some 2.
Proof.
  split; [intros H; discriminate H|].
  repeat split.
Qed.

(** ** The streaming loop and the flush (C7, C8) *)

Section Streaming.

Context {F : Type}.
Variable dejitter_timestamps : list F -> F -> F -> list F.

Abbreviation TimeSeries := (@TimeSeries F).
Abbreviation sample := (@sample F).

(** C7, as the code behaves.  In a loop iteration whose pull yields a
    non-empty chunk, with dejitter enabled, the anchor [last_time] is
    written [self.data['time'][-1]]: [self.data] is the [TimeSeries] object,
    not its window, and subscripting it raises [TypeError] while the
    arguments of the dejitter function are evaluated.  Whatever the dejitter
    function is, it is not called, [update] is not called, the buffer is
    unchanged, and [run] ends with the [TypeError], which its [except
    SerialException] clause does not catch. *)
Theorem run_iteration_dejitter_raises (streamer_sfreq : F)
  (samples : list (list F)) (t : F) (ts : list F) (rest : list (@pull F))
  (st : TimeSeries) :
  run_iteration dejitter_timestamps true streamer_sfreq samples (t :: ts) st
  = Raise TypeError st
  /\ run dejitter_timestamps true streamer_sfreq
       (inl (samples, t :: ts) :: rest) st
     = Raise TypeError st.
Proof. split; reflexivity. Qed.

Lemma format_items_row (row : sample) : format_items (tuple_of_row row) = None.
Proof. reflexivity. Qed.

(** C8, as the code behaves.  A flush of a window that holds at least one
    sample writes no row: the array's dtype has two top-level fields, the
    timestamp and the nested record of the channels, so [np.savetxt] formats
    each row with two ['%.18e'], and the second value is a record, not a
    number: [TypeError], raised from inside the [with] block, which releases
    the lock.  The file is left as it was.  Only the flush of an empty window
    returns, and it writes nothing. *)
Theorem write_to_file_raises (m : option (option string)) (u : option bool)
  (row : sample) (rest : list sample) (dt : option (list string))
  (sf : option F) (n c : option Z) (fh : list (@line F)) :
  _write_to_file
    (mk_TimeSeries m u (Some false) (Some (row :: rest)) dt sf n c (Some fh))
  = Raise TypeError
      (mk_TimeSeries m u (Some false) (Some (row :: rest)) dt sf n c (Some fh))
  /\ _write_to_file
       (mk_TimeSeries m u (Some false) (Some []) dt sf n c (Some fh))
     = Return tt
         (mk_TimeSeries m u (Some false) (Some []) dt sf n c (Some fh)).
Proof. split; reflexivity. Qed.

End Streaming.

(** ** The update algorithm over its helper methods (C5) *)

Lemma update_is_update_of {F : Type} (ts : list F) (ss : list (list F)) :
  update ts ss = update_of _append _write_to_file ts ss.
Proof. reflexivity. Qed.

Section Dispatch.

Context {F : Type}.

Abbreviation TimeSeries := (@TimeSeries F).
Abbreviation sample := (@sample F).

(** Helper methods that return on the states of [Inv] and leave the
    counters, the dtype, the event and the lock alone; [append] does not
    write to the file. *)
Variable Inv : TimeSeries -> Prop.
Variable append : list sample -> method (F:=F) unit.
Variable write_to_file : method (F:=F) unit.

Hypothesis Inv_count : forall v s, Inv s -> Inv (set__count v s).
Hypothesis Inv_updated : forall v s, Inv s -> Inv (set_updated v s).
Hypothesis append_ok :
  forall new s, Inv s ->
    exists s', append new s = Return tt s' /\ Inv s' /\ frame s s'
               /\ _file s' = _file s.
Hypothesis write_ok :
  forall s, Inv s ->
    exists s', write_to_file s = Return tt s' /\ Inv s' /\ frame s s'.

(** One call of [update], statement by statement: the counter is written,
    the first [c] samples go to [append], then, when the counter has fallen
    below 1, the flush is made and the counter reset, and only then does the
    remainder go to [append]. *)
Lemma update_of_runs (ts : list F) (ss : list (list F)) (new : list sample)
  (c n : Z) (u : bool) (st : TimeSeries) :
  Inv st ->
  _format_samples ts ss st = Return new st ->
  _count st = Some c ->
  n_samples st = Some n ->
  updated st = Some u ->
  exists s1 s3,
    append (slice_to c new) (set__count (c - len new) st) = Return tt s1
    /\ _lock s1 = _lock st
    /\ (if c - len new <? 1
        then exists s2,
               write_to_file s1 = Return tt s2
               /\ append (slice_from c new) (set__count n s2) = Return tt s3
               /\ _file s3 = _file s2
               /\ _count s3 = Some n
        else append (slice_from c new) s1 = Return tt s3
             /\ _file s3 = _file st
             /\ _count s3 = Some (c - len new))
    /\ Inv (set_updated true s3)
    /\ n_samples s3 = Some n
    /\ _dtype s3 = _dtype st
    /\ _lock s3 = _lock st
    /\ update_of append write_to_file ts ss st = Return tt (set_updated true s3).
Proof.
  intros HI Hf Hc Hn Hu.
  destruct (append_ok (slice_to c new) (set__count (c - len new) st))
    as (s1 & H1 & I1 & (F1c & F1n & F1d & F1u & F1l) & F1f);
    [apply Inv_count, HI|].
  simpl in F1c, F1n, F1d, F1u, F1l, F1f.
  exists s1.
  destruct (c - len new <? 1) eqn:E.
  - destruct (write_ok s1 I1)
      as (s2 & H2 & I2 & (F2c & F2n & F2d & F2u & F2l)).
    destruct (append_ok (slice_from c new) (set__count n s2))
      as (s3 & H3 & I3 & (F3c & F3n & F3d & F3u & F3l) & F3f);
      [apply Inv_count, I2|].
    simpl in F3c, F3n, F3d, F3u, F3l, F3f.
    exists s3.
    split; [exact H1|]. split; [exact F1l|].
    split; [exists s2; repeat split; assumption|].
    split; [apply Inv_updated, I3|].
    split; [congruence|]. split; [congruence|]. split; [congruence|].
    unfold update_of.
    unfold bind at 1. rewrite Hf.
    unfold bind at 1. unfold getattr at 1. rewrite Hc.
    unfold bind at 1. unfold setattr at 1.
    unfold bind at 1. unfold getattr at 1. simpl _count. cbv iota beta zeta.
    replace (len new + (c - len new)) with c by lia.
    unfold bind at 1. rewrite H1.
    unfold bind at 1. unfold getattr at 1. rewrite F1c. rewrite E.
    unfold bind at 1. unfold bind at 1. rewrite H2.
    unfold bind at 1. unfold getattr at 1.
    replace (n_samples s2) with (Some n) by congruence.
    unfold setattr at 1.
    unfold bind at 1. rewrite H3.
    unfold updated_set, bind, getattr, setattr.
    replace (updated s3) with (Some u) by congruence.
    reflexivity.
  - destruct (append_ok (slice_from c new) s1 I1)
      as (s3 & H3 & I3 & (F3c & F3n & F3d & F3u & F3l) & F3f).
    exists s3.
    split; [exact H1|]. split; [exact F1l|].
    split; [repeat split; congruence|].
    split; [apply Inv_updated, I3|].
    split; [congruence|]. split; [congruence|]. split; [congruence|].
    unfold update_of.
    unfold bind at 1. rewrite Hf.
    unfold bind at 1. unfold getattr at 1. rewrite Hc.
    unfold bind at 1. unfold setattr at 1.
    unfold bind at 1. unfold getattr at 1. simpl _count. cbv iota beta zeta.
    replace (len new + (c - len new)) with c by lia.
    unfold bind at 1. rewrite H1.
    unfold bind at 1. unfold getattr at 1. rewrite F1c. rewrite E.
    unfold bind at 1. unfold ret at 1.
    unfold bind at 1. rewrite H3.
    unfold updated_set, bind, getattr, setattr.
    replace (updated s3) with (Some u) by congruence.
    reflexivity.
Qed.


End Dispatch.

(** The overriding helper methods of the examples return on the states of
    [Sub_ready] and leave the counters alone. *)
Lemma Sub_ready_count (v : Z) (s : @TimeSeries Z) :
  Examples.Sub_ready s -> Examples.Sub_ready (set__count v s).
Proof. intros H. exact H. Qed.

Lemma Sub_ready_updated (v : bool) (s : @TimeSeries Z) :
  Examples.Sub_ready s -> Examples.Sub_ready (set_updated v s).
Proof. intros H. exact H. Qed.

Lemma Sub__append_ok (new : list (@sample Z)) (s : @TimeSeries Z) :
  Examples.Sub_ready s ->
  exists s',
    Examples.Sub__append new s = Return tt s'
    /\ Examples.Sub_ready s' /\ frame s s' /\ _file s' = _file s.
Proof.
  intros (Hl & Hd & Hn & Hf). destruct s as [m u l d dt sf n c f].
  simpl in *. subst l.
  destruct d as [d|]; [|congruence]. destruct n as [n|]; [|congruence].
  eexists. split; [reflexivity|].
  split; [repeat split; simpl; congruence|].
  split; repeat split.
Qed.

Lemma Sub__write_to_file_ok (s : @TimeSeries Z) :
  Examples.Sub_ready s ->
  exists s',
    Examples.Sub__write_to_file s = Return tt s'
    /\ Examples.Sub_ready s' /\ frame s s'.
Proof.
  intros (Hl & Hd & Hn & Hf). destruct s as [m u l d dt sf n c f].
  simpl in *. subst l.
  destruct d as [d|]; [|congruence]. destruct f as [f|]; [|congruence].
  eexists. split; [reflexivity|].
  split; [repeat split; simpl; congruence|].
  repeat split.
Qed.

Lemma Sub_ready_buffer : Examples.Sub_ready Examples.buffer.
Proof. repeat split; simpl; congruence. Qed.


(** ** Critical sections and the capacity floor (C6, C10) *)

Section Locking.

Context {F : Type}.
Variable zero : F.

Abbreviation TimeSeries := (@TimeSeries F).
Abbreviation sample := (@sample F).

Lemma _write_to_file_held (st : TimeSeries) :
  _lock st = Some true -> _write_to_file st = Block st.
Proof. intros H. unfold _write_to_file. apply with_lock_held, H. Qed.

Lemma data_free (d : list sample) (st : TimeSeries) :
  _lock st = Some false -> _data st = Some d -> data st = Return d st.
Proof.
  intros Hl Hd. destruct st as [m u l w dt sf n c f]. simpl in *. subst.
  reflexivity.
Qed.



End Locking.





Lemma len_trim_witness :
  len (slice_from (- 4) (Examples.zeros4 ++ Examples.chunk4)) = 4.
Proof.
  apply (len_trim 4 (Examples.zeros4 ++ Examples.chunk4));
    [lia | unfold len; simpl; lia].
Defined.

(** * Further properties of the buffer *)

(** ** The trim and the cutoff *)

(** The trim [a[-n:]] at line 114 is a first-in first-out eviction: applied
    to a full window [old] of [n >= 1] samples followed by [k] new ones, it
    drops the [k] oldest samples and keeps the rest in order, followed by the
    new ones ([k <= n]); when the new samples alone fill the window
    ([k >= n]) it keeps the last [n] of them and nothing of [old]. *)
Lemma trim_keeps_most_recent {A} (n : Z) (old new : list A) :
  1 <= n ->
  len old = n ->
  (len new <= n ->
   slice_from (- n) (old ++ new) = skipn (List.length new) old ++ new)
  /\ (n <= len new ->
      slice_from (- n) (old ++ new) = slice_from (- n) new).
Proof.
  intros Hn Hold.
  assert (Hadj : Z.to_nat (adjust (len (old ++ new)) (- n)) = List.length new).
  { unfold adjust. rewrite len_app.
    destruct (- n <? 0) eqn:E; [|apply Z.ltb_ge in E; lia].
    unfold len in *. lia. }
  assert (Htrim : slice_from (- n) (old ++ new)
                  = skipn (List.length new) old
                    ++ skipn (List.length new - List.length old) new).
  { unfold slice_from. rewrite Hadj. apply skipn_app. }
  rewrite Htrim.
  split; intros Hk.
  - replace (List.length new - List.length old)%nat with 0%nat
      by (unfold len in *; lia).
    reflexivity.
  - rewrite skipn_all2 by (unfold len in *; lia). simpl.
    unfold slice_from, adjust.
    destruct (- n <? 0) eqn:E; [|apply Z.ltb_ge in E; lia].
    f_equal. unfold len in *. lia.
Qed.

Lemma trim_keeps_most_recent_witness :
  slice_from (- 4) (Examples.zeros4 ++ [Examples.row 1 1 1; Examples.row 2 2 2])
  = skipn 2 Examples.zeros4 ++ [Examples.row 1 1 1; Examples.row 2 2 2].
Proof.
  apply (trim_keeps_most_recent 4 Examples.zeros4
           [Examples.row 1 1 1; Examples.row 2 2 2]);
    [lia | reflexivity | unfold len; simpl; lia].
Defined.

(** The sizes of the two sub-appends of [update]: with a counter [c >= 0] on
    entry and a chunk of [k] samples, the part before the flush boundary
    holds [min(c, k)] samples and the part after it the other
    [k - min(c, k)]; a chunk that does not reach the boundary ([k <= c]) goes
    whole into the first part. *)
Lemma cutoff_split_sizes {A} (c : Z) (new : list A) :
  0 <= c ->
  len (slice_to c new) = Z.min c (len new)
  /\ len (slice_from c new) = len new - Z.min c (len new)
  /\ (len new <= c -> slice_to c new = new /\ slice_from c new = []).
Proof.
  intros Hc.
  split; [apply len_slice_to, Hc|].
  split; [apply len_slice_from, Hc|].
  intros Hk. split; [apply slice_to_all, Hk|].
  unfold slice_from, adjust.
  destruct (c <? 0) eqn:E; [apply Z.ltb_lt in E; lia|].
  apply skipn_all2. unfold len in *. lia.
Qed.

Lemma cutoff_split_sizes_witness :
  len (slice_to 1 [Examples.row 4 4 4; Examples.row 5 5 5]) = 1
  /\ len (slice_from 1 [Examples.row 4 4 4; Examples.row 5 5 5]) = 1.
Proof.
  destruct (cutoff_split_sizes 1 [Examples.row 4 4 4; Examples.row 5 5 5])
    as (H1 & H2 & _); [lia|].
  split; [exact H1 | exact H2].
Defined.

(** ** What [update] never does, and its errors *)

Lemma bind_no_return {S A B} (m : M S A) (k : A -> M S B) (s : S) :
  returns (m s) = false ->
  returns (bind m k s) = false
  /\ final (bind m k s) = final (m s)
  /\ raises (bind m k s) = raises (m s)
  /\ blocks (bind m k s) = blocks (m s).
Proof.
  unfold bind. destruct (m s); simpl; intros H;
    [discriminate | repeat split | repeat split].
Qed.

Section Buffer.

Context {F : Type}.
Variable zero : F.

Abbreviation TimeSeries := (@TimeSeries F).
Abbreviation sample := (@sample F).

Lemma _append_frame (new : list sample) (st : TimeSeries) :
  returns (_append new st) = false
  /\ updated (final (_append new st)) = updated st
  /\ _file (final (_append new st)) = _file st
  /\ _count (final (_append new st)) = _count st
  /\ n_samples (final (_append new st)) = n_samples st.
Proof.
  destruct (_lock st) as [[|]|] eqn:Hl.
  - rewrite _append_held by exact Hl. repeat split.
  - destruct (_data st) as [d|] eqn:Hd.
    + rewrite (_append_blocks new d) by assumption. repeat split.
    + unfold _append, with_lock. rewrite Hl. unfold bind, getattr. simpl.
      rewrite Hd. repeat split.
  - unfold _append, with_lock. rewrite Hl. repeat split.
Qed.

Lemma to_records_wrong_arity (names : list string) (pairs : list (F * list F)) :
  Exists (fun p => List.length (snd p) <> List.length names) pairs ->
  to_records names pairs = None.
Proof.
  induction 1 as [p pairs Hp | p pairs _ IH]; simpl.
  - unfold to_record. apply Nat.eqb_neq in Hp. rewrite Hp. reflexivity.
  - rewrite IH. destruct (to_record names p); reflexivity.
Qed.

Lemma _format_samples_state (ts : list F) (ss : list (list F))
  (st : TimeSeries) :
  final (_format_samples ts ss st) = st
  /\ blocks (_format_samples ts ss st) = false.
Proof.
  unfold _format_samples, bind, getattr, np_array.
  destruct (_dtype st) as [names|]; [|split; reflexivity].
  destruct (to_records names (combine ts ss)); split; reflexivity.
Qed.

(** Once the chunk is formatted and the counter read, the rest of [update]
    is the first [_append] followed by a continuation. *)
Lemma update_reaches_append (ts : list F) (ss : list (list F))
  (new : list sample) (c : Z) (st : TimeSeries) :
  _format_samples ts ss st = Return new st ->
  _count st = Some c ->
  exists K : unit -> method unit,
    update ts ss st
    = bind (_append (slice_to (len new + (c - len new)) new)) K
        (set__count (c - len new) st).
Proof.
  intros Hf Hc. eexists. unfold update.
  unfold bind at 1. rewrite Hf.
  unfold bind at 1. unfold getattr at 1. rewrite Hc.
  unfold bind at 1. unfold setattr at 1.
  unfold bind at 1. unfold getattr at 1. simpl _count. cbv iota beta.
  reflexivity.
Qed.

(** In no state of the object and for no arguments does [update] return,
    set the [updated] event, write to the file or change [n_samples]: it
    either raises or waits for ever. *)
Theorem update_never_returns (ts : list F) (ss : list (list F)) (st : TimeSeries) :
  returns (update ts ss st) = false
  /\ updated (final (update ts ss st)) = updated st
  /\ _file (final (update ts ss st)) = _file st
  /\ n_samples (final (update ts ss st)) = n_samples st.
Proof.
  destruct (_format_samples_state ts ss st) as (Hfin & Hblk).
  destruct (_format_samples ts ss st) as [new s1 | e s1 | s1] eqn:Hf;
    simpl in Hfin, Hblk; try discriminate; subst s1.
  - destruct (_count st) as [c|] eqn:Hc.
    + destruct (update_reaches_append ts ss new c st Hf Hc) as [K HK].
      rewrite HK.
      destruct (_append_frame (slice_to (len new + (c - len new)) new)
                  (set__count (c - len new) st)) as (Hr & Hu & Hfile & _ & Hn).
      destruct (bind_no_return _ K _ Hr) as (Hr' & Hfin' & _).
      rewrite Hr', Hfin', Hu, Hfile, Hn. repeat split.
    + assert (H : update ts ss st = Raise AttributeError st).
      { unfold update. unfold bind at 1. rewrite Hf.
        unfold bind at 1. unfold getattr at 1. rewrite Hc. reflexivity. }
      rewrite H. repeat split.
  - assert (H : update ts ss st = Raise e st).
    { unfold update. unfold bind at 1. rewrite Hf. reflexivity. }
    rewrite H. repeat split.
Qed.

(** A chunk in which a paired sample does not have as many values as there
    are channels is rejected before anything is changed: [update] raises
    [ValueError] and leaves the object, counter included, exactly as it
    was. *)
Theorem update_rejects_wrong_arity (ts : list F) (ss : list (list F))
  (names : list string) (st : TimeSeries) :
  _dtype st = Some names ->
  Exists (fun p => List.length (snd p) <> List.length names) (combine ts ss) ->
  update ts ss st = Raise ValueError st.
Proof.
  intros Hn Hex. unfold update, _format_samples, np_array.
  unfold bind at 1. unfold bind at 1. unfold getattr at 1. rewrite Hn.
  rewrite (to_records_wrong_arity names _ Hex). reflexivity.
Qed.

End Buffer.

Lemma update_rejects_wrong_arity_witness :
  update [1; 2] [[1; 1]; [2; 2; 2]] Examples.buffer
  = Raise ValueError Examples.buffer.
Proof.
  apply (update_rejects_wrong_arity [1; 2] [[1; 1]; [2; 2; 2]] Examples.names);
    [reflexivity|].
  apply Exists_cons_tl, Exists_cons_hd. simpl. intros H. discriminate H.
Defined.

(** ** Formatting, initialisation and the flush without a file *)

Lemma map_fst_combine {A B} (l1 : list A) (l2 : list B) :
  map fst (combine l1 l2)
  = firstn (Nat.min (List.length l1) (List.length l2)) l1.
Proof.
  revert l2. induction l1 as [|a l1 IH]; intros [|b l2]; simpl; try reflexivity.
  f_equal. apply IH.
Qed.

Lemma map_snd_combine {A B} (l1 : list A) (l2 : list B) :
  map snd (combine l1 l2)
  = firstn (Nat.min (List.length l1) (List.length l2)) l2.
Proof.
  revert l2. induction l1 as [|a l1 IH]; intros [|b l2]; simpl; try reflexivity.
  f_equal. apply IH.
Qed.

Section Window.

Context {F : Type}.
Variable zero : F.

Abbreviation TimeSeries := (@TimeSeries F).
Abbreviation sample := (@sample F).

Lemma to_records_fields (names : list string) (pairs : list (F * list F))
  (new : list sample) :
  to_records names pairs = Some new ->
  map time new = map fst pairs
  /\ map channels new = map snd pairs
  /\ Forall (fun r => List.length (channels r) = List.length names) new.
Proof.
  revert new. induction pairs as [|p pairs IH]; intros new H; simpl in H.
  - injection H as <-. repeat split. constructor.
  - unfold to_record in H.
    destruct (Nat.eqb (List.length (snd p)) (List.length names)) eqn:E;
      [|discriminate].
    destruct (to_records names pairs) as [rs|]; [|discriminate].
    injection H as <-. destruct (IH rs eq_refl) as (Ht & Hc & Hall).
    simpl. rewrite Ht, Hc. repeat split.
    constructor; [apply Nat.eqb_eq, E | exact Hall].
Qed.

(** What [_format_samples] returns keeps the order and the content of its
    arguments: the timestamps of the records are the first
    [min(len(timestamps), len(samples))] timestamps, their channel values are
    the first as many samples, and every record has one value per channel.
    The object is not changed. *)
Theorem format_samples_keeps_order (ts : list F) (ss : list (list F))
  (new : list sample) (st st' : TimeSeries) :
  _format_samples ts ss st = Return new st' ->
  st' = st
  /\ map time new = firstn (Nat.min (List.length ts) (List.length ss)) ts
  /\ map channels new = firstn (Nat.min (List.length ts) (List.length ss)) ss
  /\ (forall names,
        _dtype st = Some names ->
        Forall (fun r => List.length (channels r) = List.length names) new).
Proof.
  intros H. unfold _format_samples, bind, getattr, np_array in H.
  destruct (_dtype st) as [names|] eqn:Hd; [|discriminate].
  destruct (to_records names (combine ts ss)) as [a|] eqn:Hr; [|discriminate].
  injection H as <- <-.
  destruct (to_records_fields _ _ _ Hr) as (Ht & Hc & Hall).
  rewrite map_fst_combine in Ht. rewrite map_snd_combine in Hc.
  repeat split; try assumption.
  intros names' Hn. injection Hn as <-. exact Hall.
Qed.

(** [initialize] is a hard reset: with the lock free and a capacity
    [n_samples >= 0], whatever the window held, it returns and the snapshot
    read afterwards is [n_samples] records of zeros, one zero per channel.
    The counter and the file are not touched (the fill counter is not
    reset), the lock is free again, and initialising twice is initialising
    once. *)
Theorem initialize_resets_window (names : list string) (n : Z)
  (st : TimeSeries) :
  _lock st = Some false ->
  n_samples st = Some n ->
  _dtype st = Some names ->
  0 <= n ->
  exists st1,
    initialize zero st = Return tt st1
    /\ data st1
       = Return (repeat (mk_sample zero (repeat zero (List.length names)))
                   (Z.to_nat n)) st1
    /\ _count st1 = _count st
    /\ _file st1 = _file st
    /\ _lock st1 = Some false
    /\ initialize zero st1 = Return tt st1.
Proof.
  intros Hl Hn Hd Hpos.
  exists (set__lock false
            (set__data (repeat (zero_sample zero names) (Z.to_nat n))
               (set__lock true st))).
  split; [apply initialize_ok; assumption|].
  destruct st as [m u l d dt sf ns c f]. simpl in *. subst.
  split; [reflexivity|].
  repeat split.
  unfold initialize, with_lock, bind, getattr, np_zeros. simpl.
  destruct (n <? 0) eqn:E; [apply Z.ltb_lt in E; lia|]. reflexivity.
Qed.

(** A negative capacity ([window * sfreq] negative) makes [initialize] raise
    [ValueError]: the lock is released and the object is exactly as
    before, its old window included. *)
Theorem initialize_negative_capacity (names : list string) (n : Z)
  (st : TimeSeries) :
  _lock st = Some false ->
  n_samples st = Some n ->
  _dtype st = Some names ->
  n < 0 ->
  initialize zero st = Raise ValueError st.
Proof.
  intros Hl Hn Hd Hneg.
  destruct st as [m u l d dt sf ns c f]. simpl in *. subst.
  unfold initialize, with_lock, bind, getattr, np_zeros. simpl.
  destruct (n <? 0) eqn:E; [reflexivity | apply Z.ltb_ge in E; lia].
Qed.

(** On a buffer that has no file (the one [__init__] is written to leave
    with [record=False]: [_file] is assigned only in the [record] branch) a
    flush raises [AttributeError], releases the lock and changes nothing. *)
Theorem write_to_file_without_file (st : TimeSeries) :
  _lock st = Some false ->
  _file st = None ->
  _write_to_file st = Raise AttributeError st.
Proof.
  intros Hl Hf.
  destruct st as [m u l d dt sf ns c f]. simpl in *. subst.
  reflexivity.
Qed.

End Window.

Lemma format_samples_keeps_order_witness :
  map time Examples.chunk4 = firstn 4 Examples.timestamps4
  /\ map channels Examples.chunk4 = firstn 4 Examples.samples4.
Proof.
  destruct (format_samples_keeps_order
              Examples.timestamps4 Examples.samples4 Examples.chunk4
              Examples.buffer Examples.buffer eq_refl)
    as (_ & Ht & Hc & _).
  split; [exact Ht | exact Hc].
Defined.

Lemma initialize_resets_window_witness :
  exists st1,
    initialize 0 Examples.buffer_uninitialized = Return tt st1
    /\ data st1 = Return Examples.zeros4 st1
    /\ _count st1 = Some 4
    /\ _file st1 = Some []
    /\ _lock st1 = Some false
    /\ initialize 0 st1 = Return tt st1.
Proof.
  apply (initialize_resets_window 0 Examples.names 4
           Examples.buffer_uninitialized);
    try reflexivity; lia.
Defined.

Lemma initialize_negative_capacity_witness :
  initialize 0
    (mk_TimeSeries (Some None) (Some false) (Some false) (Some Examples.zeros4)
       (Some Examples.names) (Some 1) (Some (-3)) (Some (-3)) (Some []))
  = Raise ValueError
      (mk_TimeSeries (Some None) (Some false) (Some false)
         (Some Examples.zeros4) (Some Examples.names) (Some 1) (Some (-3))
         (Some (-3)) (Some [])).
Proof.
  apply (initialize_negative_capacity 0 Examples.names (-3));
    try reflexivity; lia.
Defined.

Lemma write_to_file_without_file_witness :
  _write_to_file
    (mk_TimeSeries (Some None) (Some false) (Some false) (Some Examples.zeros4)
       (Some Examples.names) (Some 1) (Some 4) (Some 4) None)
  = Raise AttributeError
      (mk_TimeSeries (Some None) (Some false) (Some false)
         (Some Examples.zeros4) (Some Examples.names) (Some 1) (Some 4)
         (Some 4) None).
Proof. apply write_to_file_without_file; reflexivity. Defined.

(** ** The streaming loop *)

Section Loop.

Context {F : Type}.
Variable dejitter_timestamps : list F -> F -> F -> list F.

Abbreviation TimeSeries := (@TimeSeries F).
Abbreviation sample := (@sample F).

Lemma run_loop_skips_timeouts (dejitter : bool) (streamer_sfreq : F)
  (empties : list (list (list F))) (rest : list (@pull F)) (st : TimeSeries) :
  run_loop dejitter_timestamps dejitter streamer_sfreq
    (map timed_out empties ++ rest) st
  = run_loop dejitter_timestamps dejitter streamer_sfreq rest st.
Proof.
  induction empties as [|s empties IH]; simpl; [reflexivity|].
  unfold bind at 1. simpl. exact IH.
Qed.

(** Pulls that yield no timestamps (time-outs) are skipped: over any number
    of them [run] returns with the buffer untouched.  A pull that raises
    [SerialException] ends the loop through the [except] clause in the same
    way, and what would have been pulled after it is not looked at. *)
Theorem run_skips_timeouts (dejitter : bool) (streamer_sfreq : F)
  (empties : list (list (list F))) (rest : list (@pull F)) (st : TimeSeries) :
  run dejitter_timestamps dejitter streamer_sfreq (map timed_out empties) st
  = Return tt st
  /\ run dejitter_timestamps dejitter streamer_sfreq
       (map timed_out empties ++ inr tt :: rest) st
     = Return tt st.
Proof.
  unfold run, try_except. split.
  - rewrite <- (app_nil_r (map timed_out empties)).
    rewrite run_loop_skips_timeouts. reflexivity.
  - rewrite run_loop_skips_timeouts. reflexivity.
Qed.

(** With dejitter disabled, the first chunk that carries timestamps goes to
    [update] as pulled, and on an initialised buffer the streaming thread
    waits there for ever: [run] does not come back, whatever is pulled
    later, so clearing [proceed] can no longer stop it. *)
Theorem run_without_dejitter_blocks (streamer_sfreq : F)
  (empties : list (list (list F))) (samples : list (list F)) (t : F)
  (ts : list F) (rest : list (@pull F)) (names : list string)
  (new d : list sample) (c : Z) (st : TimeSeries) :
  _lock st = Some false ->
  _dtype st = Some names ->
  to_records names (combine (t :: ts) samples) = Some new ->
  _count st = Some c ->
  _data st = Some d ->
  run dejitter_timestamps false streamer_sfreq
    (map timed_out empties ++ inl (samples, t :: ts) :: rest) st
  = Block (set__data (d ++ slice_to c new)
             (set__lock true (set__count (c - len new) st))).
Proof.
  intros Hl Hn Hr Hc Hd. unfold run, try_except.
  rewrite run_loop_skips_timeouts. simpl run_loop.
  unfold bind at 1. unfold run_iteration. unfold bind at 1. unfold ret at 1.
  rewrite (update_blocks (t :: ts) samples names new d c) by assumption.
  reflexivity.
Qed.

(** A malformed chunk ends the streaming thread: with dejitter disabled, a
    pulled chunk in which a paired sample has not one value per channel makes
    [run] end with [ValueError], which its [except SerialException] clause
    does not catch; the buffer is left as it was. *)
Theorem run_propagates_value_error (streamer_sfreq : F)
  (empties : list (list (list F))) (samples : list (list F)) (t : F)
  (ts : list F) (rest : list (@pull F)) (names : list string)
  (st : TimeSeries) :
  _dtype st = Some names ->
  Exists (fun p => List.length (snd p) <> List.length names)
    (combine (t :: ts) samples) ->
  run dejitter_timestamps false streamer_sfreq
    (map timed_out empties ++ inl (samples, t :: ts) :: rest) st
  = Raise ValueError st.
Proof.
  intros Hn Hex. unfold run, try_except.
  rewrite run_loop_skips_timeouts. simpl run_loop.
  unfold bind at 1. unfold run_iteration. unfold bind at 1. unfold ret at 1.
  unfold update, _format_samples, np_array.
  unfold bind at 1. unfold bind at 1. unfold getattr at 1. rewrite Hn.
  rewrite (to_records_wrong_arity names _ Hex). reflexivity.
Qed.

End Loop.

Lemma run_without_dejitter_blocks_witness :
  run (fun ts _ _ => ts) false 256
    (map timed_out [[]; []]
     ++ inl (Examples.samples4, Examples.timestamps4) :: [inr tt])
    Examples.buffer
  = Block (set__data (Examples.zeros4 ++ slice_to 4 Examples.chunk4)
             (set__lock true
                (set__count (4 - len Examples.chunk4) Examples.buffer))).
Proof.
  apply (run_without_dejitter_blocks (fun ts _ _ => ts) 256 [[]; []]
           Examples.samples4 1 [2; 3; 4] [inr tt] Examples.names
           Examples.chunk4 Examples.zeros4 4 Examples.buffer);
    reflexivity.
Defined.

Lemma run_propagates_value_error_witness :
  run (fun ts _ _ => ts) false 256
    (map timed_out [[]] ++ inl ([[1; 1; 1]], [1]) :: [])
    Examples.buffer
  = Raise ValueError Examples.buffer.
Proof.
  apply (run_propagates_value_error (fun ts _ _ => ts) 256 [[]]
           [[1; 1; 1]] 1 [] [] Examples.names Examples.buffer);
    [reflexivity|].
  apply Exists_cons_hd. simpl. intros H. discriminate H.
Defined.

(** * The file of a recording buffer, the inlet and the streamer *)

(** ** The next available label *)

Section Labels.

Variable path_exists : string -> bool.
Variable name_of : Z -> string.

Lemma next_label_sound (fuel : nat) (l0 m : Z) :
  next_label path_exists name_of fuel l0 = Some m ->
  l0 <= m
  /\ path_exists (name_of m) = false
  /\ (forall i, l0 <= i < m -> path_exists (name_of i) = true).
Proof.
  revert l0. induction fuel as [|fuel IH]; intros l0 H; simpl in H;
    [discriminate|].
  destruct (path_exists (name_of l0)) eqn:E.
  - destruct (IH _ H) as (Hle & Hfree & Hbelow).
    split; [lia|]. split; [exact Hfree|].
    intros i Hi. destruct (Z.eq_dec i l0) as [->|Hne]; [exact E|].
    apply Hbelow. lia.
  - injection H as <-. split; [lia|]. split; [exact E|]. intros i Hi. lia.
Qed.

Lemma next_label_complete (fuel : nat) (l0 m : Z) :
  l0 <= m ->
  path_exists (name_of m) = false ->
  (forall i, l0 <= i < m -> path_exists (name_of i) = true) ->
  (Z.to_nat (m - l0) < fuel)%nat ->
  next_label path_exists name_of fuel l0 = Some m.
Proof.
  revert l0. induction fuel as [|fuel IH]; intros l0 Hle Hfree Hbelow Hfuel;
    [lia|].
  simpl. destruct (path_exists (name_of l0)) eqn:E.
  - assert (Hne : l0 <> m) by (intros ->; congruence).
    apply IH; [lia | exact Hfree | intros i Hi; apply Hbelow; lia | lia].
  - destruct (Z.eq_dec l0 m) as [->|Hne]; [reflexivity|].
    rewrite Hbelow in E by lia. discriminate.
Qed.

(** When neither [filename] nor [label] is passed and the search of lines
    77-79 ends, the name it ends on is that of a file that does not exist
    yet, so that a new recording never appends to an old one, and its label
    is the smallest one free: every smaller label, from 0 on, names an
    existing file. *)
Theorem chosen_file_is_new (fuel : nat) (f : string) :
  choose_filename path_exists name_of None None fuel = Some f ->
  path_exists f = false
  /\ exists m,
       0 <= m
       /\ f = name_of m
       /\ (forall i, 0 <= i < m -> path_exists (name_of i) = true).
Proof.
  unfold choose_filename. intros H.
  destruct (next_label path_exists name_of fuel 0) as [m|] eqn:E;
    [|discriminate].
  injection H as <-.
  destruct (next_label_sound _ _ _ E) as (Hle & Hfree & Hbelow).
  split; [exact Hfree|]. exists m. repeat split; assumption.
Qed.

(** The search ends whenever some label is free: if the files of the labels
    [0 .. m-1] exist and that of [m] does not, then after [m + 1] evaluations
    of the loop test the name chosen is the one of label [m].  An explicit
    [label] is used as it is, whether or not its file exists (the file is
    opened for appending), and an explicit [filename] overrides both. *)
Theorem label_search_finds_first_free (fuel : nat) (m : Z) :
  0 <= m ->
  path_exists (name_of m) = false ->
  (forall i, 0 <= i < m -> path_exists (name_of i) = true) ->
  (Z.to_nat m < fuel)%nat ->
  choose_filename path_exists name_of None None fuel = Some (name_of m)
  /\ (forall l,
        path_exists (name_of l) = true ->
        choose_filename path_exists name_of None (Some l) fuel
        = Some (name_of l))
  /\ (forall f label,
        choose_filename path_exists name_of (Some f) label fuel = Some f).
Proof.
  intros Hm Hfree Hbelow Hfuel. unfold choose_filename.
  rewrite (next_label_complete fuel 0 m); try assumption.
  - repeat split.
  - rewrite Z.sub_0_r. exact Hfuel.
Qed.

End Labels.

(** ** The directory of the file *)

Lemma rindex_spec (sep : Ascii.ascii) (s : string) :
  match rindex sep s with
  | Some i =>
      String.get i s = Some sep
      /\ (forall j, (i < j)%nat -> String.get j s <> Some sep)
  | None => forall j, String.get j s <> Some sep
  end.
Proof.
  induction s as [|c rest IH]; simpl.
  - intros j. destruct j; discriminate.
  - destruct (rindex sep rest) as [i|].
    + destruct IH as (Hget & Hlast). split; [exact Hget|].
      intros [|j] Hj; [lia|]. simpl. apply Hlast. lia.
    + destruct (Ascii.eqb_spec c sep) as [->|Hne].
      * split; [reflexivity|]. intros [|j] Hj; [lia|]. simpl. apply IH.
      * intros [|j]; simpl; [congruence | apply IH].
Qed.

Lemma rindex_none (sep : Ascii.ascii) (s : string) :
  (forall j, String.get j s <> Some sep) -> rindex sep s = None.
Proof.
  intros H. pose proof (rindex_spec sep s) as Hs.
  destruct (rindex sep s) as [i|]; [|reflexivity].
  destruct Hs as (Hget & _). exfalso. exact (H i Hget).
Qed.

Lemma rindex_no_sep (sep : Ascii.ascii) (s : string) :
  rindex sep s = None -> forall j, String.get j s <> Some sep.
Proof.
  intros H. pose proof (rindex_spec sep s) as Hs. rewrite H in Hs. exact Hs.
Qed.

Lemma rindex_app (sep : Ascii.ascii) (dir base : string) :
  rindex sep base = None ->
  rindex sep (dir ++ String sep base) = Some (String.length dir).
Proof.
  intros H. induction dir as [|c dir IH]; simpl.
  - rewrite H, Ascii.eqb_refl. reflexivity.
  - rewrite IH. reflexivity.
Qed.

Lemma substring_prefix (dir rest : string) :
  substring 0 (String.length dir) (dir ++ rest) = dir.
Proof.
  induction dir as [|c dir IH]; simpl.
  - destruct rest; reflexivity.
  - rewrite IH. reflexivity.
Qed.

(** [filename.rindex(os.path.sep)] at line 83 is the position of the last
    separator of the file name: the character there is the separator and no
    later one is.  It raises [ValueError], and so does the constructor's
    [record] branch before any directory is made or file opened, exactly when
    the file name contains no separator at all, as a bare [filename='x.csv']
    does. *)
Theorem rindex_finds_last_separator (sep : Ascii.ascii) (filename : string) :
  (forall i,
     rindex sep filename = Some i ->
     String.get i filename = Some sep
     /\ (forall j, (i < j)%nat -> String.get j filename <> Some sep)
     /\ makedirs_target sep filename = inr (substring 0 i filename))
  /\ (makedirs_target sep filename = inl ValueError
      <-> forall j, String.get j filename <> Some sep).
Proof.
  pose proof (rindex_spec sep filename) as Hs. unfold makedirs_target.
  split.
  - intros i Hi. rewrite Hi in *. destruct Hs as (Hget & Hlast).
    repeat split; assumption.
  - split.
    + intros H. destruct (rindex sep filename) as [i|]; [discriminate|].
      exact Hs.
    + intros H. rewrite (rindex_none sep filename H). reflexivity.
Qed.

(** The directory handed to [os.makedirs] is the file name up to its last
    separator: for a name [dir + sep + base] whose [base] contains no
    separator it is [dir], whatever separators [dir] itself contains. *)
Theorem makedirs_target_is_dirname (sep : Ascii.ascii) (dir base : string) :
  (forall j, String.get j base <> Some sep) ->
  makedirs_target sep (dir ++ String sep base) = inr dir.
Proof.
  intros H. unfold makedirs_target.
  rewrite (rindex_app sep dir base (rindex_none sep base H)).
  rewrite substring_prefix. reflexivity.
Qed.

Lemma chosen_file_is_new_witness :
  let path_exists := fun s => (String.eqb s "t_0"%string || String.eqb s "t_1"%string)%bool in
  let name_of := fun l : Z =>
    if l =? 0 then "t_0"%string else if l =? 1 then "t_1"%string else "t_2"%string in
  path_exists "t_2"%string = false
  /\ exists m,
       0 <= m
       /\ "t_2"%string = name_of m
       /\ (forall i, 0 <= i < m -> path_exists (name_of i) = true).
Proof.
  exact (chosen_file_is_new
           (fun s => (String.eqb s "t_0"%string || String.eqb s "t_1"%string)%bool)
           (fun l : Z =>
              if l =? 0 then "t_0"%string else if l =? 1 then "t_1"%string else "t_2"%string)
           5 "t_2"%string eq_refl).
Defined.

Lemma label_search_finds_first_free_witness :
  choose_filename
    (fun s => (String.eqb s "t_0"%string || String.eqb s "t_1"%string)%bool)
    (fun l : Z => if l =? 0 then "t_0"%string else if l =? 1 then "t_1"%string else "t_2"%string)
    None None 3
  = Some "t_2"%string.
Proof.
  destruct (label_search_finds_first_free
              (fun s =>
                 (String.eqb s "t_0"%string || String.eqb s "t_1"%string)%bool)
              (fun l : Z =>
                 if l =? 0 then "t_0"%string
                 else if l =? 1 then "t_1"%string else "t_2"%string)
              3 2) as (H & _).
  - lia.
  - reflexivity.
  - intros i Hi. assert (Hc : i = 0 \/ i = 1) by lia.
    destruct Hc as [-> | ->]; reflexivity.
  - simpl. lia.
  - exact H.
Defined.

Lemma makedirs_target_is_dirname_witness :
  makedirs_target os_path_sep "./data/timeseries_0.csv" = inr "./data"%string.
Proof.
  apply (makedirs_target_is_dirname os_path_sep "./data" "timeseries_0.csv").
  apply rindex_no_sep. reflexivity.
Defined.

(** ** Channel names and the streamer's constructor *)

Lemma next_ch_name_pads (e : xml_element) (n : nat) :
  next_ch_name e n
  = firstn n e ++ repeat EmptyString (n - List.length e).
Proof.
  revert e. induction n as [|n IH]; intros e; [reflexivity|].
  destruct e as [|l e]; simpl.
  - rewrite IH. simpl. rewrite firstn_nil, Nat.sub_0_r. reflexivity.
  - rewrite IH. reflexivity.
Qed.

Section Inlet.

Context {F : Type}.
Variable zero : F.
Variable int_of_product : F -> F -> Z.
Variable ten : F.
Variable record_file : method (F:=F) unit.

Abbreviation stream_info := (@stream_info F).
Abbreviation TimeSeries := (@TimeSeries F).

(** [get_ch_names] returns exactly [channel_count] names (none for a count
    that is not positive), whatever the description holds: the labels of the
    first [channel_count] channel elements in document order, followed, when
    the description has fewer elements than that, by one empty string for
    each missing one.  When the description has exactly [channel_count]
    elements the result is the list of their labels. *)
Theorem get_ch_names_count (info : stream_info) :
  let n := Z.to_nat (channel_count info) in
  List.length (get_ch_names info) = n
  /\ get_ch_names info
     = firstn n (first_channel info)
       ++ repeat EmptyString (n - List.length (first_channel info))
  /\ (List.length (first_channel info) = n ->
      get_ch_names info = first_channel info).
Proof.
  intros n. unfold get_ch_names. fold n.
  rewrite next_ch_name_pads.
  split; [|split].
  - rewrite length_app, repeat_length, length_firstn. lia.
  - reflexivity.
  - intros H. rewrite <- H, Nat.sub_diag, firstn_all. apply app_nil_r.
Qed.


(** [Data] itself is abstract: constructing it, initialising it or updating
    it raises [NotImplementedError] and assigns nothing.  For a subclass,
    [Data.__init__] calls the subclass's [initialize] before it assigns
    [metadata], [updated] and [_lock]: if [initialize] returns, the three are
    assigned on the state it left, the lock free and the event clear; if it
    does not, [Data.__init__] ends as [initialize] did and the object has no
    lock and no event beyond what it had. *)
Theorem Data_init_calls_initialize_first (init : method (F:=F) unit)
  (meta : option string) (st : TimeSeries) :
  Data___init__ Data_initialize meta st = Raise NotImplementedError st
  /\ Data_update st = Raise NotImplementedError st
  /\ (forall st1,
        init st = Return tt st1 ->
        Data___init__ init meta st
        = Return tt (set__lock false (set_updated false (set_metadata meta st1))))
  /\ (returns (init st) = false ->
      returns (Data___init__ init meta st) = false
      /\ final (Data___init__ init meta st) = final (init st)
      /\ raises (Data___init__ init meta st) = raises (init st)
      /\ blocks (Data___init__ init meta st) = blocks (init st)).
Proof.
  split; [reflexivity|]. split; [reflexivity|]. split.
  - intros st1 H. unfold Data___init__. unfold bind at 1. rewrite H.
    reflexivity.
  - intros H. unfold Data___init__. apply bind_no_return. exact H.
Qed.

End Inlet.
